(** * resume-chatbot: settings resolution and the agent factory

    A shallow embedding of [app/config/config.py] and [app/core/agent.py].

    Python objects that the program compares by identity (the cached
    [Settings] instance, the chat-model handle shared by the agents) carry
    the value of their [id()]; a Python [dict] is a [gmap]; a Python call
    that may raise is a state transformer returning either a value or the
    exception raised, together with the state it leaves behind. *)

From stdpp Require Import base option list strings gmap.
From Stdlib Require Import Ascii String.

Local Open Scope string_scope.
Local Open Scope list_scope.

(** ** Exceptions and the state-and-exception monad *)

(** The exceptions that can travel through the two modules.  The classes
    themselves belong to the libraries: [ConfigurationError] is what
    pydantic raises when it validates a settings object (the payload lists
    the required fields that no source provides), [AttributeError] is
    Python's own, [ProviderError] stands for anything the model client or
    the remote endpoint raises, identified by its payload, and
    [UnicodeDecodeError] and [OSError] are what opening and decoding a file
    can raise. *)
Inductive Exception : Type :=
| ConfigurationError (missing : list string)
| AttributeError (attr : string)
| ProviderError (payload : string)
| UnicodeDecodeError
| OSError (payload : string).

Inductive Result (A : Type) : Type :=
| Ok (a : A)
| Raise (e : Exception).
Arguments Ok {A} a.
Arguments Raise {A} e.

(** A computation over a state [S]: the state reached is returned also when
    an exception is raised, as side effects done before a [raise] stay. *)
Definition M (S A : Type) : Type := S → Result A * S.

Definition ret {S A} (a : A) : M S A := λ s, (Ok a, s).
Definition raise {S A} (e : Exception) : M S A := λ s, (Raise e, s).
Definition bind {S A B} (m : M S A) (k : A → M S B) : M S B :=
  λ s, match m s with
       | (Ok a, s') => k a s'
       | (Raise e, s') => (Raise e, s')
       end.
Definition gets {S A} (f : S → A) : M S A := λ s, (Ok (f s), s).
Definition modify {S} (f : S → S) : M S unit := λ s, (Ok tt, f s).

Notation "'let!' x ':=' m 'in' k" := (bind m (λ x, k))
  (at level 10, x name, m at level 100, k at level 200).
Notation "'run!' m 'in' k" := (bind m (λ _, k))
  (at level 10, m at level 100, k at level 200).

(** ** app/config/config.py *)

Module Config.

(** *** Text *)

(** [str.lower] on the letters [A]-[Z]; every other byte is kept.  The
    names compared below ([model_name], [ollama_base_url]) are ASCII and
    contain neither [k] nor [i], the only ASCII letters that some
    non-ASCII character lowers to, so byte-wise lowering decides the same
    matches as Python's. *)
Definition lower_ascii (c : ascii) : ascii :=
  let n := nat_of_ascii c in
  if (65 <=? n)%nat && (n <=? 90)%nat then ascii_of_nat (n + 32) else c.

Fixpoint lower (s : string) : string :=
  match s with
  | EmptyString => EmptyString
  | String c r => String (lower_ascii c) (lower r)
  end.

(** *** The process *)

(** [class Settings(BaseSettings)], lines 6-19: an instance with its two
    fields and its identity. *)
Record Settings : Type := mkSettings {
  settings_id : nat;
  OLLAMA_BASE_URL : string;
  MODEL_NAME : string
}.

(** A [.env] file, by what python-dotenv makes of it when it is read as
    UTF-8 in a process with the given [os.environ] (from which the
    [${NAME}] references of the file are expanded): either the exception
    raised while the file is opened and decoded, or the bindings of the
    file in file order with their values expanded; a key written without
    [=] has no value. *)
Definition DotenvFile : Type :=
  list (string * string) → Result (list (string * option string)).

(** A file that decodes and refers to no variable. *)
Definition plain_file (bindings : list (string * option string)) : DotenvFile :=
  λ _, Ok bindings.

(** What [get_settings] can observe and change in the running process:
    - [environ]: [os.environ] in iteration order (names are unique as
      written, but may differ in letter case only);
    - [dotenv]: the [.env] file of the working directory, [None] when
      there is no such file;
    - [cache]: the single entry of the [lru_cache] around [get_settings];
    - [next_id]: the identity the next allocated object receives;
    - [source_reads]: how many times the sources have been read. *)
Record Process : Type := mkProcess {
  environ : list (string * string);
  dotenv : option DotenvFile;
  cache : option Settings;
  next_id : nat;
  source_reads : nat
}.

Definition set_environ (e : list (string * string)) (p : Process) : Process :=
  mkProcess e (dotenv p) (cache p) (next_id p) (source_reads p).
Definition set_dotenv (d : option DotenvFile) (p : Process) : Process :=
  mkProcess (environ p) d (cache p) (next_id p) (source_reads p).
Definition set_cache (c : option Settings) (p : Process) : Process :=
  mkProcess (environ p) (dotenv p) c (next_id p) (source_reads p).
Definition count_read (p : Process) : Process :=
  mkProcess (environ p) (dotenv p) (cache p) (next_id p) (S (source_reads p)).

(** Allocation of a fresh object: its identity is returned. *)
Definition alloc : M Process nat :=
  λ p, (Ok (next_id p),
        mkProcess (environ p) (dotenv p) (cache p) (S (next_id p))
                  (source_reads p)).

(** *** pydantic-settings, as configured on lines 14-19 *)

(** [case_sensitive=False]: the names of a source are lowered while the
    source is turned into a dict, [{k.lower(): v for k, v in items}], so of
    several names equal up to case the one iterated last stays. *)
Definition parse_env_vars {V} (env_vars : list (string * V)) : gmap string V :=
  foldl (λ d kv, <[lower kv.1 := kv.2]> d) ∅ env_vars.

(** The name under which a field is looked up in a source. *)
Definition env_name (field : string) : string := lower field.

(** The environment-variable source. *)
Definition env_settings (p : Process) (field : string) : option string :=
  parse_env_vars (environ p) !! env_name field.

(** [d[k] = v] on a dict kept in iteration order: an existing key keeps
    its place and takes the new value, a new key goes last. *)
Fixpoint setitem {V} (k : string) (v : V) (d : list (string * V))
    : list (string * V) :=
  match d with
  | [] => [(k, v)]
  | (k', v') :: rest =>
      if String.eqb k k' then (k, v) :: rest else (k', v') :: setitem k v rest
  end.

(** The dict that python-dotenv returns: the bindings assigned one after
    the other, so a key bound twice stays where it first stood and holds
    its last value. *)
Definition dict_of {V} (bindings : list (string * V)) : list (string * V) :=
  foldl (λ d kv, setitem kv.1 kv.2 d) [] bindings.

(** Reading the [env_file=".env"] source (lines 15-16): an empty dict
    without the file; otherwise the file is opened and decoded, which may
    raise. *)
Definition read_dotenv (p : Process) : Result (list (string * option string)) :=
  match dotenv p with
  | None => Ok []
  | Some file =>
      match file (environ p) with
      | Ok bindings => Ok (dict_of bindings)
      | Raise e => Raise e
      end
  end.

(** What the [.env] source gives to a field: a key without a value counts
    as not given. *)
Definition dotenv_settings (file_vars : list (string * option string))
    (field : string) : option string :=
  mjoin (parse_env_vars file_vars !! env_name field).

(** Sources in priority order: environment variables before [.env]. *)
Definition field_value (p : Process)
    (file_vars : list (string * option string)) (field : string)
    : option string :=
  match env_settings p field with
  | Some v => Some v
  | None => dotenv_settings file_vars field
  end.

(** Line 10: the default of [OLLAMA_BASE_URL]. *)
Definition default_OLLAMA_BASE_URL : string := "http://localhost:11434/v1".

(** [Settings()]: read the sources (an unreadable [.env] file ends the
    call with the exception of the read), fill [OLLAMA_BASE_URL] from its
    default when no source gives it, fail on the required [MODEL_NAME]
    (line 12, [Field(...)]) when no source gives it, otherwise allocate
    the instance.  Names other than the two fields are never looked at
    ([extra="ignore"]). *)
Definition Settings_new : M Process Settings :=
  run! modify count_read in
  let! file_vars := (λ p, (read_dotenv p, p)) in
  let! base_url := gets (λ p, default default_OLLAMA_BASE_URL
                                (field_value p file_vars "OLLAMA_BASE_URL")) in
  let! model_name := gets (λ p, field_value p file_vars "MODEL_NAME") in
  match model_name with
  | None => raise (ConfigurationError ["MODEL_NAME"])
  | Some name =>
      let! i := alloc in
      ret (mkSettings i base_url name)
  end.

(** *** get_settings, lines 22-28 *)

(** [@lru_cache] on a function without arguments: one cache entry, filled
    by the first call that returns; a call that raises stores nothing. *)
Definition get_settings : M Process Settings :=
  λ p, match cache p with
       | Some s => (Ok s, p)
       | None =>
           match Settings_new p with
           | (Ok s, p') => (Ok s, set_cache (Some s) p')
           | (Raise e, p') => (Raise e, p')
           end
       end.

(** *** What the rest of the process may do to the sources *)

(** [del os.environ[k]] removes the name; [os.environ[k] = v] is
    [setitem]. *)
Definition delitem (k : string) (env : list (string * string))
    : list (string * string) :=
  filter (λ kv, kv.1 ≠ k) env.

(** A change of the configuration sources made between two calls:
    [os.environ[k] = v], [del os.environ[k]], or rewriting (or removing)
    the [.env] file. *)
Inductive EnvChange : Type :=
| Putenv (k v : string)
| Unsetenv (k : string)
| WriteDotenv (d : option DotenvFile).

Definition apply_change (c : EnvChange) (p : Process) : Process :=
  match c with
  | Putenv k v => set_environ (setitem k v (environ p)) p
  | Unsetenv k => set_environ (delitem k (environ p)) p
  | WriteDotenv d => set_dotenv d p
  end.

Definition apply_changes (cs : list EnvChange) (p : Process) : Process :=
  foldl (λ q c, apply_change c q) p cs.

(** A stretch of the life of the process in which one operation [call] is
    invoked again and again: each element of [rounds] is the list of
    changes made to the sources before one further invocation.  The
    outcomes are collected in order. *)
Fixpoint run_rounds {A} (call : M Process A) (rounds : list (list EnvChange))
    (p : Process) : list (Result A) * Process :=
  match rounds with
  | [] => ([], p)
  | cs :: rest =>
      let '(r, p1) := call (apply_changes cs p) in
      let '(rs, p2) := run_rounds call rest p1 in
      (r :: rs, p2)
  end.

(** A process that has not called [get_settings] yet. *)
Definition fresh (env : list (string * string)) (file : option DotenvFile)
    : Process :=
  mkProcess env file None 0 0.

End Config.

(** ** app/core/agent.py *)

Module Core.
Import Config.

(** *** The library objects the module handles *)

(** [OllamaProvider(base_url=...)]: the provider with the base URL its
    client ends up with. *)
Record OllamaProvider : Type := mkProvider {
  provider_base_url : string
}.

(** [OpenAIChatModel(model_name, provider=...)]: the model handle, with
    its identity. *)
Record OpenAIChatModel : Type := mkModel {
  handle_id : nat;
  handle_model_name : string;
  handle_provider : OllamaProvider
}.

(** [pydantic_ai.Agent]: the model it talks to and its tuple of system
    prompts, which is empty unless [system_prompt=] is passed. *)
Record Agent : Type := mkAgent {
  agent_model : OpenAIChatModel;
  system_prompts : list string
}.

(** [AgentRunResult[str]]: the text of the reply. *)
Record AgentRunResult : Type := mkRunResult {
  output : string
}.

(** The attributes of an [AgentFactory] instance.  An attribute exists
    once it has been assigned; reading one that does not raises
    [AttributeError]. *)
Record AgentFactory : Type := mkFactory {
  model_name : option string;
  ollama_base_url : option string;
  model : option OpenAIChatModel
}.

Definition new_instance : AgentFactory := mkFactory None None None.

Definition getattr {S A} (name : string) (a : option A) : M S A :=
  match a with
  | Some v => ret v
  | None => raise (AttributeError name)
  end.

(** The module namespace after line 16, [settings = get_settings()]. *)
Record Globals : Type := mkGlobals {
  settings : Settings
}.

(** Loading the module: lines 9-16. *)
Definition import_module : M Process Globals :=
  let! s := get_settings in
  ret (mkGlobals s).

(** Python truth value of an [Optional[str]] (line 62): [None] and the
    empty string are false. *)
Definition truthy (o : option string) : bool :=
  match o with
  | None => false
  | Some EmptyString => false
  | Some (String _ _) => true
  end.

(** Lines 84-97: the body is [pass]; the call returns [None]. *)
Definition _identify_model_provider {S} (self : AgentFactory)
    (name : string) : M S unit :=
  ret tt.

(** [Agent(model=m)] and [Agent(model=m, system_prompt=text)]:
    [system_prompt] is [None] when the keyword is not passed, and the
    agent then keeps the empty tuple; a string becomes a one-element
    tuple. *)
Definition Agent_new (m : OpenAIChatModel) (system_prompt : option string)
    : Agent :=
  mkAgent m match system_prompt with
            | Some text => [text]
            | None => []
            end.

(** Lines 44-67. *)
Definition create_agent {S} (self : AgentFactory)
    (system_prompt : option string) : M S Agent :=
  if truthy system_prompt then
    let! m := getattr "model" (model self) in
    ret (Agent_new m system_prompt)
  else
    let! m := getattr "model" (model self) in
    ret (Agent_new m None).

Section Library.

(** The client constructors and the remote run belong to pydantic-ai.
    Of the constructors only this is used: given their arguments and the
    process they run in, they either raise or return an object.
    [provider_raises] and [chat_model_raises] say which exception, if any;
    [provider_url] is the base URL of the client of the provider built,
    which the library derives from the argument and from the process
    (it normalises the text, and may consult the environment). *)
Variable provider_raises : Process → string → option Exception.
Variable provider_url : Process → string → string.
Variable chat_model_raises :
  Process → string → OllamaProvider → option Exception.

(** The endpoint and everything between it and [Agent.run_sync] is a
    state [Remote] that a run may change, and a run either returns a
    result or raises. *)
Variable Remote : Type.
Variable run_sync : Agent → string → M Remote AgentRunResult.

Definition OllamaProvider_new (base_url : string) : M Process OllamaProvider :=
  λ p, match provider_raises p base_url with
       | Some e => (Raise e, p)
       | None => (Ok (mkProvider (provider_url p base_url)), p)
       end.

Definition OpenAIChatModel_new (name : string) (prov : OllamaProvider)
    : M Process OpenAIChatModel :=
  λ p, match chat_model_raises p name prov with
       | Some e => (Raise e, p)
       | None => (let! i := alloc in ret (mkModel i name prov)) p
       end.

(** A method body runs on the process together with [self]. *)
Definition in_process {A} (m : M Process A) : M (Process * AgentFactory) A :=
  λ st, let '(r, p') := m st.1 in (r, (p', st.2)).
Definition on_self (f : AgentFactory → AgentFactory)
    : M (Process * AgentFactory) unit :=
  modify (λ st, (st.1, f st.2)).
Definition self_attr {A} (name : string) (proj : AgentFactory → option A)
    : M (Process * AgentFactory) A :=
  λ st, getattr name (proj st.2) st.

(** Lines 69-82. *)
Definition _model_init : M (Process * AgentFactory) OpenAIChatModel :=
  let! name := self_attr "model_name" model_name in
  let! url := self_attr "ollama_base_url" ollama_base_url in
  let! prov := in_process (OllamaProvider_new url) in
  in_process (OpenAIChatModel_new name prov).

(** Lines 38-42. *)
Definition __init__ (g : Globals) : M (Process * AgentFactory) unit :=
  run! on_self (λ self, mkFactory (Some (MODEL_NAME (settings g)))
                                  (ollama_base_url self) (model self)) in
  run! on_self (λ self, mkFactory (model_name self)
                                  (Some (OLLAMA_BASE_URL (settings g)))
                                  (model self)) in
  let! m := _model_init in
  on_self (λ self, mkFactory (model_name self) (ollama_base_url self)
                             (Some m)).

(** The call [AgentFactory()]: a new instance is initialised and handed
    to the caller when [__init__] returns; when [__init__] raises, the
    exception is all the caller gets. *)
Definition AgentFactory_new (g : Globals) : M Process AgentFactory :=
  λ p, match __init__ g (p, new_instance) with
       | (Ok _, (p', self)) => (Ok self, p')
       | (Raise e, (p', _)) => (Raise e, p')
       end.

(** Line 16 followed by line 126: the module is loaded, then a factory is
    constructed. *)
Definition load_and_construct : M Process AgentFactory :=
  let! g := import_module in
  AgentFactory_new g.

(** Lines 99-121. *)
Definition test_agent (self : AgentFactory) (message : string)
    (system_prompt : option string) : M Remote AgentRunResult :=
  let! agent := create_agent self system_prompt in
  run_sync agent message.

End Library.

End Core.

(** ** app/core/agent.py, lines 124-129: the interactive loop *)

Module Main.
Import Config Core.

(** The loop has no exit of its own: the program ends when a statement
    raises and nothing catches it.  [input] raises [EOFError] once the
    standard input is used up; everything else comes from the module load,
    the construction or a run. *)
Inductive Uncaught : Type :=
| EOFError
| Propagated (e : Exception).

Definition newline : string := String (ascii_of_nat 10) EmptyString.

Section Loop.
Variable provider_raises : Process → string → option Exception.
Variable provider_url : Process → string → string.
Variable chat_model_raises :
  Process → string → OllamaProvider → option Exception.
Variable Remote : Type.
Variable run_sync : Agent → string → M Remote AgentRunResult.

(** [str(result)], as the f-string of line 129 formats it; the text is the
    library's. *)
Variable str_of_result : AgentRunResult → string.

(** Lines 127-129 on the lines still to be read from the standard input.
    [stdout] is the list of the pieces of text written so far: [input]
    writes its prompt before it reads, and [print] writes the formatted
    result followed by a newline. *)
Fixpoint repl (agent : AgentFactory) (stdin : list string) (w : Remote)
    (stdout : list string) : Uncaught * Remote * list string :=
  let stdout := stdout ++ ["User: "] in
  match stdin with
  | [] => (EOFError, w, stdout)
  | msg :: rest =>
      match test_agent Remote run_sync agent msg None w with
      | (Ok result, w') =>
          repl agent rest w'
            (stdout ++ [String.append newline
                          (String.append (str_of_result result) newline)])
      | (Raise e, w') => (Propagated e, w', stdout)
      end
  end.

(** The module run as a script: line 16 while it loads, then lines
    124-129. *)
Definition main (stdin : list string) (p : Process) (w : Remote)
    : Uncaught * Process * Remote * list string :=
  match load_and_construct provider_raises provider_url chat_model_raises p
  with
  | (Raise e, p') => (Propagated e, p', w, [])
  | (Ok agent, p') =>
      let '(u, w', stdout) := repl agent stdin w [] in
      (u, p', w', stdout)
  end.

End Loop.

End Main.

(** * Properties *)

Import Config.

(** ** Reading the sources *)

(** [names field kv]: the entry [kv] of a source is an assignment to
    [field], letter case ignored. *)
Definition names {V} (field : string) (kv : string * V) : Prop :=
  lower kv.1 = env_name field.

(** No entry of the source assigns [field]. *)
Definition unset {V} (field : string) (src : list (string * V)) : Prop :=
  Forall (λ kv, ¬ names field kv) src.

(** The last entry of the source that assigns [field] gives it [v]. *)
Definition last_set {V} (field : string) (v : V) (src : list (string * V))
    : Prop :=
  ∃ before k after,
    src = before ++ (k, v) :: after ∧ names field (k, v) ∧ unset field after.

(** The [.env] file is absent or can be read. *)
Definition readable (p : Process) : Prop :=
  ∃ file_vars, read_dotenv p = Ok file_vars.

(** The [.env] file is absent, or it can be read and none of its bindings
    assigns [field]. *)
Definition dotenv_unset (field : string) (p : Process) : Prop :=
  ∃ file_vars, read_dotenv p = Ok file_vars ∧ unset field file_vars.

Section Parse.
Context {V : Type}.
Implicit Types (src : list (string * V)) (d : gmap string V).

Lemma fold_unset field src d :
  unset field src →
  foldl (λ d kv, <[lower kv.1 := kv.2]> d) d src !! env_name field
  = d !! env_name field.
Proof.
  intros Hu. revert d.
  induction Hu as [|kv src Hkv _ IH]; intros d; simpl; [done|].
  rewrite IH. apply lookup_insert_ne. exact Hkv.
Qed.

Lemma parse_unset field src :
  unset field src → parse_env_vars src !! env_name field = None.
Proof.
  intros Hu. unfold parse_env_vars. rewrite fold_unset by done.
  apply lookup_empty.
Qed.

Lemma parse_last_set field v src :
  last_set field v src → parse_env_vars src !! env_name field = Some v.
Proof.
  intros (before & k & after & -> & Hk & Hu).
  unfold parse_env_vars. rewrite foldl_app. simpl.
  rewrite fold_unset by done.
  unfold names in Hk. simpl in Hk. rewrite <- Hk.
  apply lookup_insert_eq.
Qed.
End Parse.

Lemma field_value_env p file_vars field v :
  last_set field v (environ p) → field_value p file_vars field = Some v.
Proof.
  intros H. unfold field_value, env_settings. by rewrite (parse_last_set _ _ _ H).
Qed.

Lemma field_value_unset p file_vars field :
  unset field (environ p) → unset field file_vars →
  field_value p file_vars field = None.
Proof.
  intros He Hd. unfold field_value, env_settings, dotenv_settings.
  by rewrite (parse_unset _ _ He), (parse_unset _ _ Hd).
Qed.

(** What [Settings()] does, by the outcome of reading the [.env] file and
    the value of the required field. *)
Lemma Settings_new_some p file_vars name :
  read_dotenv p = Ok file_vars →
  field_value p file_vars "MODEL_NAME" = Some name →
  Settings_new p
  = (Ok (mkSettings (next_id p)
           (default default_OLLAMA_BASE_URL
              (field_value p file_vars "OLLAMA_BASE_URL"))
           name),
     mkProcess (environ p) (dotenv p) (cache p) (S (next_id p))
               (S (source_reads p))).
Proof.
  intros Hr H. unfold Settings_new, bind, modify, gets, alloc, ret. simpl.
  change (read_dotenv (count_read p)) with (read_dotenv p). rewrite Hr.
  change (field_value (count_read p)) with (field_value p).
  by rewrite H.
Qed.

Lemma Settings_new_none p file_vars :
  read_dotenv p = Ok file_vars →
  field_value p file_vars "MODEL_NAME" = None →
  Settings_new p = (Raise (ConfigurationError ["MODEL_NAME"]), count_read p).
Proof.
  intros Hr H. unfold Settings_new, bind, modify, gets, raise. simpl.
  change (read_dotenv (count_read p)) with (read_dotenv p). rewrite Hr.
  change (field_value (count_read p)) with (field_value p).
  by rewrite H.
Qed.

Lemma Settings_new_unreadable p e :
  read_dotenv p = Raise e → Settings_new p = (Raise e, count_read p).
Proof.
  intros Hr. unfold Settings_new, bind, modify. simpl.
  change (read_dotenv (count_read p)) with (read_dotenv p). by rewrite Hr.
Qed.

(** ** get_settings *)

Lemma get_settings_hit p s :
  cache p = Some s → get_settings p = (Ok s, p).
Proof. intros H. unfold get_settings. by rewrite H. Qed.

Lemma get_settings_miss_some p file_vars name :
  cache p = None →
  read_dotenv p = Ok file_vars →
  field_value p file_vars "MODEL_NAME" = Some name →
  let s := mkSettings (next_id p)
             (default default_OLLAMA_BASE_URL
                (field_value p file_vars "OLLAMA_BASE_URL"))
             name in
  get_settings p
  = (Ok s, mkProcess (environ p) (dotenv p) (Some s) (S (next_id p))
                     (S (source_reads p))).
Proof.
  intros Hc Hr Hf. unfold get_settings.
  by rewrite Hc, (Settings_new_some _ _ _ Hr Hf).
Qed.

Lemma get_settings_miss_none p file_vars :
  cache p = None →
  read_dotenv p = Ok file_vars →
  field_value p file_vars "MODEL_NAME" = None →
  get_settings p = (Raise (ConfigurationError ["MODEL_NAME"]), count_read p).
Proof.
  intros Hc Hr Hf. unfold get_settings.
  by rewrite Hc, (Settings_new_none _ _ Hr Hf).
Qed.

Lemma get_settings_miss_unreadable p e :
  cache p = None →
  read_dotenv p = Raise e →
  get_settings p = (Raise e, count_read p).
Proof.
  intros Hc Hr. unfold get_settings.
  by rewrite Hc, (Settings_new_unreadable _ _ Hr).
Qed.

(** A call that returns leaves its result in the cache. *)
Lemma get_settings_fills_cache p s p1 :
  get_settings p = (Ok s, p1) → cache p1 = Some s.
Proof.
  unfold get_settings. destruct (cache p) as [c|] eqn:Hc.
  - intros [= <- <-]. exact Hc.
  - destruct (Settings_new p) as [[s'|e] p'].
    + intros [= <- <-]. reflexivity.
    + discriminate.
Qed.

(** Changes of the sources touch neither the cache nor the counters. *)
Lemma apply_changes_frame cs p :
  cache (apply_changes cs p) = cache p
  ∧ source_reads (apply_changes cs p) = source_reads p
  ∧ next_id (apply_changes cs p) = next_id p.
Proof.
  unfold apply_changes. revert p.
  induction cs as [|c cs IH]; intros p; simpl; [done|].
  destruct (IH (apply_change c p)) as (-> & -> & ->).
  by destruct c.
Qed.

(** Processes used below: one whose environment spells the name of the
    model variable in two ways, one whose [.env] file gives the base URL,
    and one whose [.env] file cannot be decoded. *)
Definition two_spellings : Process :=
  fresh [("MODEL_NAME", "llama3"); ("model_name", "mistral")] None.

Definition llama3_with_dotenv_url : Process :=
  fresh [("MODEL_NAME", "llama3")]
        (Some (plain_file
                 [("OLLAMA_BASE_URL", Some "http://ollama:11434/v1")])).

Definition llama3_bad_dotenv : Process :=
  fresh [("MODEL_NAME", "llama3")] (Some (λ _, Raise UnicodeDecodeError)).

(** C1, as the specification words it, does not hold.  The environment of
    [two_spellings] contains [MODEL_NAME] with the non-empty value
    ["llama3"] and there is no [.env] file, yet the first
    [get_settings()] returns a Settings whose model name is ["mistral"]:
    names are matched without regard to case and the variable met last
    wins. *)
Lemma get_settings_model_name_counterexample :
  cache two_spellings = None
  ∧ dotenv two_spellings = None
  ∧ ("MODEL_NAME", "llama3") ∈ environ two_spellings
  ∧ "llama3" ≠ ""
  ∧ (get_settings two_spellings).1
    = Ok (mkSettings 0 "http://localhost:11434/v1" "mistral")
  ∧ "mistral" ≠ "llama3".
Proof.
  repeat split; try reflexivity; try discriminate.
  apply list_elem_of_here.
Qed.

(** C1 (amended): on a call of [get_settings()] that finds the cache empty,
    if the [.env] file is absent or can be read and the last environment
    variable named [MODEL_NAME] up to letter case has the value [v], the
    call succeeds and returns a Settings whose model name is [v]; if no
    environment variable is named [MODEL_NAME] up to letter case and the
    [.env] file is absent, or can be read and has no binding of that name,
    the call fails with the configuration error that reports [MODEL_NAME]
    as missing. *)
Theorem get_settings_model_name (p : Process) :
  cache p = None →
  (∀ v, readable p → last_set "MODEL_NAME" v (environ p) →
        ∃ s p', get_settings p = (Ok s, p') ∧ MODEL_NAME s = v)
  ∧ (unset "MODEL_NAME" (environ p) → dotenv_unset "MODEL_NAME" p →
     get_settings p
     = (Raise (ConfigurationError ["MODEL_NAME"]), count_read p)).
Proof.
  intros Hc. split.
  - intros v [file_vars Hr] Hv.
    apply (field_value_env p file_vars) in Hv.
    rewrite (get_settings_miss_some _ _ _ Hc Hr Hv). by eexists _, _.
  - intros He (file_vars & Hr & Hd).
    apply (get_settings_miss_none p file_vars); [done|done|].
    by apply field_value_unset.
Qed.

Definition no_model_name : Process :=
  fresh [("PATH", "/usr/bin")] (Some (plain_file [("DEBUG", None)])).

Lemma get_settings_model_name_witness :
  (∃ s p', get_settings two_spellings = (Ok s, p') ∧ MODEL_NAME s = "mistral")
  ∧ get_settings no_model_name
    = (Raise (ConfigurationError ["MODEL_NAME"]), count_read no_model_name).
Proof.
  split.
  - apply (get_settings_model_name two_spellings); [reflexivity| |].
    + by exists [].
    + exists [("MODEL_NAME", "llama3")], "model_name", [].
      repeat split. constructor.
  - apply (get_settings_model_name no_model_name); [reflexivity| |].
    + repeat constructor. by vm_compute.
    + exists [("DEBUG", None)]. split; [reflexivity|].
      repeat constructor. by vm_compute.
Defined.

(** C5: with [MODEL_NAME] set to ["llama3"] and [OLLAMA_BASE_URL] unset,
    that is, given neither by an environment variable nor by the [.env]
    file, which is absent or readable (names compared up to letter case),
    the first [get_settings()] returns a Settings whose model name is
    ["llama3"] and whose base URL is the default
    ["http://localhost:11434/v1"]. *)
Theorem get_settings_default_url (p : Process) :
  cache p = None →
  last_set "MODEL_NAME" "llama3" (environ p) →
  unset "OLLAMA_BASE_URL" (environ p) →
  dotenv_unset "OLLAMA_BASE_URL" p →
  ∃ p', get_settings p
        = (Ok (mkSettings (next_id p) "http://localhost:11434/v1" "llama3"), p').
Proof.
  intros Hc Hm He (file_vars & Hr & Hd).
  rewrite (get_settings_miss_some _ _ _ Hc Hr (field_value_env _ _ _ _ Hm)).
  rewrite (field_value_unset _ _ _ He Hd). by eexists.
Qed.

Lemma get_settings_default_url_witness :
  ∃ p', get_settings (fresh [("MODEL_NAME", "llama3")] None)
        = (Ok (mkSettings 0 "http://localhost:11434/v1" "llama3"), p').
Proof.
  apply (get_settings_default_url (fresh [("MODEL_NAME", "llama3")] None)).
  - reflexivity.
  - exists [], "MODEL_NAME", []. repeat split. constructor.
  - repeat constructor. by vm_compute.
  - exists []. split; [reflexivity|constructor].
Defined.

(** C2: once a call of [get_settings()] has returned a Settings, every later
    call in the process returns that very instance (same identity, same
    fields) and the sources are not read again, whatever is done to the
    environment variables and to the [.env] file between the calls. *)
Theorem get_settings_memoized (p : Process) (s : Settings) (p1 : Process) :
  get_settings p = (Ok s, p1) →
  ∀ rounds,
    (run_rounds get_settings rounds p1).1 = replicate (List.length rounds) (Ok s)
    ∧ source_reads (run_rounds get_settings rounds p1).2 = source_reads p1
    ∧ cache (run_rounds get_settings rounds p1).2 = Some s.
Proof.
  intros Hfirst rounds. apply get_settings_fills_cache in Hfirst.
  revert p1 Hfirst.
  induction rounds as [|cs rounds IH]; intros p1 Hc; simpl; [done|].
  destruct (apply_changes_frame cs p1) as (Hc' & Hr' & _).
  rewrite (get_settings_hit (apply_changes cs p1) s) by congruence.
  destruct (IH (apply_changes cs p1)) as (IH1 & IH2 & IH3); [congruence|].
  destruct (run_rounds get_settings rounds (apply_changes cs p1)) as [rs p2].
  simpl in *. by rewrite IH1, IH2, Hr'.
Qed.

Definition llama3_only : Process := fresh [("MODEL_NAME", "llama3")] None.

Definition llama3_settings : Settings :=
  mkSettings 0 "http://localhost:11434/v1" "llama3".

Definition three_rounds : list (list EnvChange) :=
  [[Putenv "MODEL_NAME" "mistral"];
   [Unsetenv "MODEL_NAME"; WriteDotenv (Some (plain_file []))];
   []].

Lemma get_settings_memoized_witness :
  (run_rounds get_settings three_rounds (get_settings llama3_only).2).1
  = [Ok llama3_settings; Ok llama3_settings; Ok llama3_settings]
  ∧ source_reads
      (run_rounds get_settings three_rounds (get_settings llama3_only).2).2
    = 1.
Proof.
  destruct (get_settings_memoized llama3_only llama3_settings
              (get_settings llama3_only).2 eq_refl three_rounds)
    as (H1 & H2 & _).
  split; [exact H1 | exact H2].
Defined.


(** ** The agent factory *)

Import Core.

(** Calls made one after the other. *)
Fixpoint for_each {S A B} (call : A → M S B) (args : list A) : M S (list B) :=
  match args with
  | [] => ret []
  | a :: rest =>
      let! b := call a in
      let! bs := for_each call rest in
      ret (b :: bs)
  end.

Section Factory.
Variable provider_raises : Process → string → option Exception.
Variable provider_url : Process → string → string.
Variable chat_model_raises :
  Process → string → OllamaProvider → option Exception.

Abbreviation AgentFactory_new :=
  (Core.AgentFactory_new provider_raises provider_url chat_model_raises).
Abbreviation load_and_construct :=
  (Core.load_and_construct provider_raises provider_url chat_model_raises).

(** The handle that a construction in process [p] builds. *)
Definition built_handle (g : Globals) (p : Process) : OpenAIChatModel :=
  mkModel (next_id p) (MODEL_NAME (settings g))
          (mkProvider (provider_url p (OLLAMA_BASE_URL (settings g)))).

(** The factory that a construction in process [p] returns. *)
Definition built_factory (g : Globals) (p : Process) : AgentFactory :=
  mkFactory (Some (MODEL_NAME (settings g)))
            (Some (OLLAMA_BASE_URL (settings g)))
            (Some (built_handle g p)).

(** The three ways a construction can go. *)
Lemma AgentFactory_new_unfold g p :
  AgentFactory_new g p
  = match provider_raises p (OLLAMA_BASE_URL (settings g)) with
    | Some e => (Raise e, p)
    | None =>
        match chat_model_raises p (MODEL_NAME (settings g))
                (mkProvider (provider_url p (OLLAMA_BASE_URL (settings g)))) with
        | Some e => (Raise e, p)
        | None => (Ok (built_factory g p), (alloc p).2)
        end
    end.
Proof.
  destruct p as [env file c n r].
  unfold Core.AgentFactory_new, __init__, _model_init, bind, on_self, modify,
    self_attr, getattr, ret, in_process, OllamaProvider_new,
    OpenAIChatModel_new. simpl.
  destruct (provider_raises _ _); [done|]. simpl.
  destruct (chat_model_raises _ _ _); done.
Qed.

Lemma AgentFactory_new_ok g p f p' :
  AgentFactory_new g p = (Ok f, p') →
  f = built_factory g p ∧ p' = (alloc p).2.
Proof.
  rewrite AgentFactory_new_unfold.
  destruct (provider_raises _ _); [discriminate|].
  destruct (chat_model_raises _ _ _); [discriminate|].
  by intros [= <- <-].
Qed.

(** On a factory that has its [model], [create_agent] returns and changes
    nothing. *)
Lemma create_agent_ok {S} (f : AgentFactory) h sp (s : S) :
  model f = Some h →
  create_agent f sp s
  = (Ok (Agent_new h (if truthy sp then sp else None)), s).
Proof.
  intros Hm. unfold create_agent, bind, getattr, ret. rewrite Hm.
  by destruct (truthy sp).
Qed.

Lemma for_each_create_agent {S} (f : AgentFactory) h prompts (s : S) :
  model f = Some h →
  for_each (create_agent f) prompts s
  = (Ok (map (λ sp, Agent_new h (if truthy sp then sp else None)) prompts), s).
Proof.
  intros Hm. induction prompts as [|sp prompts IH]; simpl; [done|].
  unfold bind at 1. rewrite (create_agent_ok f h sp s Hm).
  unfold bind at 1. by rewrite IH.
Qed.

(** C3: for a constructed factory and any sequence of [create_agent]
    calls on it, every call returns an Agent, and every Agent returned
    refers to the one model handle the factory holds (same identity), so
    all of them have one and the same pair of model name and base URL, the
    pair of that handle; the model name is the factory's. *)
Theorem agents_share_model_handle (g : Globals) (p p' : Process)
    (f : AgentFactory) :
  AgentFactory_new g p = (Ok f, p') →
  ∃ h, model f = Some h
       ∧ model_name f = Some (handle_model_name h)
       ∧ ∀ S (s : S) (prompts : list (option string)),
           ∃ agents,
             for_each (create_agent f) prompts s = (Ok agents, s)
             ∧ List.length agents = List.length prompts
             ∧ Forall (λ a, agent_model a = h) agents
             ∧ Forall (λ a,
                         (handle_model_name (agent_model a),
                          provider_base_url (handle_provider (agent_model a)))
                         = (handle_model_name h,
                            provider_base_url (handle_provider h)))
                      agents.
Proof.
  intros Hnew. apply AgentFactory_new_ok in Hnew as [-> _].
  exists (built_handle g p). repeat split.
  intros S s prompts. eexists. split; [by apply for_each_create_agent|].
  split; [by rewrite length_map|].
  split; apply Forall_map; by apply Forall_true.
Qed.

(** C4: on a constructed factory, [create_agent(None)] returns an Agent
    without any system prompt, and for a non-empty string [X],
    [create_agent(X)] returns an Agent whose system prompt is [X]; the
    system prompts of the two Agents differ, so looking at them tells the
    two apart. *)
Theorem create_agent_system_prompt (g : Globals) (p p' : Process)
    (f : AgentFactory) (X : string) :
  AgentFactory_new g p = (Ok f, p') →
  X ≠ "" →
  ∀ S (s : S),
    ∃ plain prompted,
      create_agent f None s = (Ok plain, s)
      ∧ system_prompts plain = []
      ∧ create_agent f (Some X) s = (Ok prompted, s)
      ∧ system_prompts prompted = [X]
      ∧ system_prompts plain ≠ system_prompts prompted.
Proof.
  intros Hnew HX S s. apply AgentFactory_new_ok in Hnew as [-> _].
  eexists _, _. split; [by apply create_agent_ok|]. split; [done|].
  split; [by apply create_agent_ok|].
  destruct X as [|c X]; [done|]. by simpl.
Qed.

(** C9: [create_agent("")] does what [create_agent(None)] does, and on a
    constructed factory the Agent it returns has no system prompt: the
    empty string is not kept as a system prompt. *)
Theorem create_agent_empty_string (g : Globals) (p p' : Process)
    (f : AgentFactory) :
  AgentFactory_new g p = (Ok f, p') →
  ∀ S (s : S),
    create_agent f (Some "") s = create_agent f None s
    ∧ ∃ a, create_agent f (Some "") s = (Ok a, s) ∧ system_prompts a = [].
Proof.
  intros Hnew S s. split; [done|].
  apply AgentFactory_new_ok in Hnew as [-> _].
  eexists. split; [by apply create_agent_ok|done].
Qed.

(** When the provider constructor raises, [__init__] stops with two of the
    three attributes assigned; that instance stays inside the failed call
    and the caller receives the exception only. *)
Lemma init_raise_keeps_instance_private g p e :
  provider_raises p (OLLAMA_BASE_URL (settings g)) = Some e →
  __init__ provider_raises provider_url chat_model_raises g (p, new_instance)
  = (Raise e, (p, mkFactory (Some (MODEL_NAME (settings g)))
                            (Some (OLLAMA_BASE_URL (settings g))) None))
  ∧ AgentFactory_new g p = (Raise e, p).
Proof.
  intros He. split.
  - unfold __init__, _model_init, bind, on_self, modify, self_attr, getattr,
      ret, in_process, OllamaProvider_new. simpl. by rewrite He.
  - by rewrite AgentFactory_new_unfold, He.
Qed.

(** C7: a construction either returns a factory whose three attributes
    are all set ([model_name] and [ollama_base_url] copied from the
    settings, [model] the handle bound to them) after building exactly one
    handle, or raises the exception that the client binding raised,
    having built nothing; and when loading the settings fails, that
    exception is what comes out and no construction takes place. *)
Theorem construction_is_atomic (g : Globals) (p : Process) :
  match AgentFactory_new g p with
  | (Ok f, p') =>
      f = built_factory g p
      ∧ next_id p' = S (next_id p)
      ∧ source_reads p' = source_reads p
      ∧ provider_raises p (OLLAMA_BASE_URL (settings g)) = None
      ∧ chat_model_raises p (MODEL_NAME (settings g))
          (mkProvider (provider_url p (OLLAMA_BASE_URL (settings g)))) = None
  | (Raise e, p') =>
      p' = p
      ∧ (provider_raises p (OLLAMA_BASE_URL (settings g)) = Some e
         ∨ provider_raises p (OLLAMA_BASE_URL (settings g)) = None
           ∧ chat_model_raises p (MODEL_NAME (settings g))
               (mkProvider (provider_url p (OLLAMA_BASE_URL (settings g)))) = Some e)
  end
  ∧ match get_settings p with
    | (Ok s, p1) => load_and_construct p = AgentFactory_new (mkGlobals s) p1
    | (Raise e, p1) => load_and_construct p = (Raise e, p1)
    end.
Proof.
  split.
  - rewrite AgentFactory_new_unfold.
    destruct (provider_raises _ _) as [e|] eqn:Hp; [by auto|].
    destruct (chat_model_raises _ _ _) as [e|] eqn:Hc; [by auto|].
    by destruct p.
  - unfold Core.load_and_construct, import_module, bind, ret.
    by destruct (get_settings p) as [[s|e] p1].
Qed.

(** Constructions read no source and leave the cache alone. *)
Lemma AgentFactory_new_frame g p :
  source_reads (AgentFactory_new g p).2 = source_reads p
  ∧ cache (AgentFactory_new g p).2 = cache p.
Proof.
  rewrite AgentFactory_new_unfold.
  destruct (provider_raises _ _); [done|].
  destruct (chat_model_raises _ _ _); [done|]. by destruct p.
Qed.

(** [get_settings] reads the sources at most once. *)
Lemma get_settings_reads p :
  (source_reads (get_settings p).2 ≤ S (source_reads p))%nat.
Proof.
  unfold get_settings. destruct (cache p); simpl; [lia|].
  unfold Settings_new, bind, modify, gets, alloc, ret, raise. simpl.
  destruct (read_dotenv _); simpl; [|lia].
  destruct (field_value _ _ "MODEL_NAME"); simpl; lia.
Qed.

(** C10: the settings are those returned by the [get_settings()] call made
    while the module is loaded; every factory constructed afterwards, with
    any changes to the environment and the [.env] file in between, has the
    model name and the base URL of those settings, and no construction
    reads the sources. *)
Theorem factories_share_settings (p0 p1 : Process) (g : Globals) :
  import_module p0 = (Ok g, p1) →
  get_settings p0 = (Ok (settings g), p1)
  ∧ (source_reads p1 ≤ S (source_reads p0))%nat
  ∧ ∀ rounds,
      Forall (λ r, ∀ f, r = Ok f →
                model_name f = Some (MODEL_NAME (settings g))
                ∧ ollama_base_url f = Some (OLLAMA_BASE_URL (settings g)))
             (run_rounds (AgentFactory_new g) rounds p1).1
      ∧ source_reads (run_rounds (AgentFactory_new g) rounds p1).2
        = source_reads p1.
Proof.
  intros Himp.
  assert (get_settings p0 = (Ok (settings g), p1)) as Hget.
  { revert Himp. unfold import_module, bind, ret.
    destruct (get_settings p0) as [[s|e] q]; [|discriminate].
    by intros [= <- <-]. }
  split; [done|]. split.
  { pose proof (get_settings_reads p0) as H. by rewrite Hget in H. }
  clear. intros rounds. revert p1.
  induction rounds as [|cs rounds IH]; intros p1; simpl; [by split|].
  destruct (AgentFactory_new g (apply_changes cs p1)) as [r q] eqn:Hnew.
  destruct (IH q) as [IH1 IH2].
  destruct (run_rounds (AgentFactory_new g) rounds q) as [rs q'].
  simpl in *. split.
  - constructor; [|done]. intros f ->.
    by apply AgentFactory_new_ok in Hnew as [-> _].
  - rewrite IH2.
    destruct (AgentFactory_new_frame g (apply_changes cs p1)) as [Hr _].
    rewrite Hnew in Hr. simpl in Hr. rewrite Hr.
    by destruct (apply_changes_frame cs p1) as (_ & -> & _).
Qed.

End Factory.

Section Run.
Variable provider_raises : Process → string → option Exception.
Variable provider_url : Process → string → string.
Variable chat_model_raises :
  Process → string → OllamaProvider → option Exception.
Variable Remote : Type.
Variable run_sync : Agent → string → M Remote AgentRunResult.

(** C6: [test_agent] on a constructed factory is one [run_sync] of the
    Agent that [create_agent] returns, and nothing else: when that run
    raises, [test_agent] raises the same exception and leaves the remote
    side as that single run left it, so nothing is retried, caught or put
    in place of the failure. *)
Theorem test_agent_propagates_failure (g : Globals) (p p' : Process)
    (f : AgentFactory) (message : string) (system_prompt : option string)
    (w : Remote) :
  AgentFactory_new provider_raises provider_url chat_model_raises g p
  = (Ok f, p') →
  ∃ a, create_agent f system_prompt w = (Ok a, w)
       ∧ test_agent Remote run_sync f message system_prompt w
         = run_sync a message w
       ∧ ∀ e w', run_sync a message w = (Raise e, w') →
                 test_agent Remote run_sync f message system_prompt w
                 = (Raise e, w').
Proof.
  intros Hnew. apply AgentFactory_new_ok in Hnew as [-> _].
  eexists. split; [by apply create_agent_ok|].
  assert (test_agent Remote run_sync (built_factory provider_url g p) message
            system_prompt w
          = run_sync (Agent_new (built_handle provider_url g p)
                        (if truthy system_prompt then system_prompt else None))
              message w) as Hrun.
  { unfold test_agent, bind.
    by rewrite (create_agent_ok (built_factory provider_url g p) (built_handle provider_url g p)). }
  split; [done|]. intros e w' He. by rewrite Hrun.
Qed.

End Run.

(** C8: for every model name, [_identify_model_provider] returns [None] and
    leaves the state it ran in as it was. *)
Theorem identify_model_provider_does_nothing {S} (self : AgentFactory)
    (name : string) (s : S) :
  _identify_model_provider self name s = (Ok tt, s).
Proof. reflexivity. Qed.


(** ** Instances *)

(** Client constructors that accept every argument. *)
Definition accepts_all : Process → string → option Exception := λ _ _, None.
Definition binds_all : Process → string → OllamaProvider → option Exception :=
  λ _ _ _, None.

(** A provider whose client writes the base URL with a final slash. *)
Definition with_slash : Process → string → string :=
  λ _ base_url, String.append base_url "/".

(** The process right after the module was loaded with only
    [MODEL_NAME=llama3] configured, and the module's namespace. *)
Definition llama3_loaded : Process := (get_settings llama3_only).2.
Definition llama3_globals : Globals := mkGlobals llama3_settings.

Definition llama3_factory : AgentFactory :=
  built_factory with_slash llama3_globals llama3_loaded.

Lemma llama3_factory_constructed :
  AgentFactory_new accepts_all with_slash binds_all llama3_globals llama3_loaded
  = (Ok llama3_factory, (alloc llama3_loaded).2).
Proof. reflexivity. Defined.

(** An endpoint that refuses its first request and answers the following
    ones; its state counts the requests received. *)
Definition flaky_endpoint (a : Agent) (message : string)
    : M nat AgentRunResult :=
  λ n, match n with
       | 0 => (Raise (ProviderError "connection refused"), 1)
       | S _ => (Ok (mkRunResult "Hello!"), S n)
       end.

Lemma agents_share_model_handle_witness :
  ∃ agents,
    for_each (create_agent llama3_factory)
      [None; Some "Be concise"; Some ""] tt
    = (Ok agents, tt)
    ∧ Forall (λ a, agent_model a = built_handle with_slash llama3_globals llama3_loaded)
        agents.
Proof.
  destruct (agents_share_model_handle accepts_all with_slash binds_all llama3_globals
              llama3_loaded _ llama3_factory llama3_factory_constructed)
    as (h & Hh & _ & Hall).
  injection Hh as <-.
  destruct (Hall unit tt [None; Some "Be concise"; Some ""])
    as (agents & Hrun & _ & Hshare & _).
  exists agents. split; [exact Hrun | exact Hshare].
Defined.

Lemma create_agent_system_prompt_witness :
  ∃ plain prompted,
    create_agent llama3_factory None tt = (Ok plain, tt)
    ∧ system_prompts plain = []
    ∧ create_agent llama3_factory (Some "Be concise") tt = (Ok prompted, tt)
    ∧ system_prompts prompted = ["Be concise"]
    ∧ system_prompts plain ≠ system_prompts prompted.
Proof.
  apply (create_agent_system_prompt accepts_all with_slash binds_all llama3_globals
           llama3_loaded _ llama3_factory "Be concise"
           llama3_factory_constructed).
  discriminate.
Defined.

Lemma create_agent_empty_string_witness :
  create_agent llama3_factory (Some "") tt = create_agent llama3_factory None tt
  ∧ ∃ a, create_agent llama3_factory (Some "") tt = (Ok a, tt)
         ∧ system_prompts a = [].
Proof.
  apply (create_agent_empty_string accepts_all with_slash binds_all llama3_globals
           llama3_loaded _ llama3_factory llama3_factory_constructed).
Defined.

Lemma test_agent_propagates_failure_witness :
  test_agent nat flaky_endpoint llama3_factory "Hello" (Some "Be concise") 0
  = (Raise (ProviderError "connection refused"), 1).
Proof.
  destruct (test_agent_propagates_failure accepts_all with_slash binds_all nat
              flaky_endpoint llama3_globals llama3_loaded _ llama3_factory
              "Hello" (Some "Be concise") 0 llama3_factory_constructed)
    as (a & _ & _ & Hfail).
  apply Hfail. reflexivity.
Defined.

Lemma factories_share_settings_witness :
  Forall (λ r, ∀ f, r = Ok f →
            model_name f = Some "llama3"
            ∧ ollama_base_url f = Some "http://localhost:11434/v1")
    (run_rounds (AgentFactory_new accepts_all with_slash binds_all llama3_globals)
       three_rounds llama3_loaded).1
  ∧ source_reads
      (run_rounds (AgentFactory_new accepts_all with_slash binds_all llama3_globals)
         three_rounds llama3_loaded).2
    = 1.
Proof.
  destruct (factories_share_settings accepts_all with_slash binds_all llama3_only
              llama3_loaded llama3_globals eq_refl) as (_ & _ & Hall).
  exact (Hall three_rounds).
Defined.


(** * Further properties *)

(** ** What a source gives to a name *)

Section Resolve.
Context {V : Type}.
Implicit Types (src : list (string * V)) (d : gmap string V).

(** The value of the last entry whose lowered name is [n], if any. *)
Fixpoint last_named (n : string) (src : list (string * V)) : option V :=
  match src with
  | [] => None
  | kv :: rest =>
      match last_named n rest with
      | Some v => Some v
      | None => if decide (lower kv.1 = n) then Some kv.2 else None
      end
  end.

Lemma fold_lookup n src d :
  foldl (λ d kv, <[lower kv.1 := kv.2]> d) d src !! n
  = match last_named n src with
    | Some v => Some v
    | None => d !! n
    end.
Proof.
  revert d. induction src as [|kv rest IH]; intros d; simpl; [done|].
  rewrite IH. destruct (last_named n rest); [done|].
  rewrite lookup_insert. by destruct (decide (lower kv.1 = n)).
Qed.

Lemma parse_lookup n src : parse_env_vars src !! n = last_named n src.
Proof.
  unfold parse_env_vars. rewrite fold_lookup, lookup_empty.
  by destruct (last_named n src).
Qed.

Lemma last_named_None n src :
  last_named n src = None → Forall (λ kv, lower kv.1 ≠ n) src.
Proof.
  induction src as [|kv rest IH]; simpl; [by constructor|].
  destruct (last_named n rest); [discriminate|].
  destruct (decide (lower kv.1 = n)); [discriminate|].
  intros _. constructor; [done|by apply IH].
Qed.

Lemma last_named_filter (P : string → Prop) `{∀ k, Decision (P k)} n src :
  (∀ k, lower k = n → P k) →
  last_named n (filter (λ kv, P kv.1) src) = last_named n src.
Proof.
  intros HP. induction src as [|kv rest IH]; simpl; [done|].
  rewrite filter_cons. destruct (decide (P kv.1)) as [Hk|Hk]; simpl.
  - by rewrite IH.
  - rewrite IH. destruct (last_named n rest); [done|].
    destruct (decide (lower kv.1 = n)) as [Hn|]; [|done].
    by destruct Hk; apply HP.
Qed.

Lemma last_named_same_names n src src' :
  Forall2 (λ a b, lower a.1 = lower b.1 ∧ a.2 = b.2) src src' →
  last_named n src = last_named n src'.
Proof.
  induction 1 as [|a b src src' [Hk Hv] _ IH]; simpl; [done|].
  by rewrite IH, Hk, Hv.
Qed.
End Resolve.

(** After [os.environ[k] = v] on an environment in which nothing is named
    like [k], the new variable is the one a lookup of that name finds. *)
Lemma last_named_setitem (k v : string) (env : list (string * string)) :
  Forall (λ kv, lower kv.1 ≠ lower k) env →
  last_named (lower k) (setitem k v env) = Some v.
Proof.
  induction 1 as [|[k' v'] env Hk _ IH]; simpl.
  - by rewrite decide_True.
  - destruct (String.eqb_spec k k') as [->|_]; [done|].
    simpl. by rewrite IH.
Qed.

Lemma field_value_resolve p file_vars field :
  field_value p file_vars field
  = match last_named (env_name field) (environ p) with
    | Some v => Some v
    | None => mjoin (last_named (env_name field) file_vars)
    end.
Proof.
  unfold field_value, env_settings, dotenv_settings.
  by rewrite !parse_lookup.
Qed.

(** The outcome of [get_settings] is decided by the cache, the next
    identity and what the sources give to the two fields. *)
Lemma get_settings_result_ext p q vars_p vars_q :
  cache p = cache q →
  next_id p = next_id q →
  read_dotenv p = Ok vars_p →
  read_dotenv q = Ok vars_q →
  field_value p vars_p "MODEL_NAME" = field_value q vars_q "MODEL_NAME" →
  field_value p vars_p "OLLAMA_BASE_URL"
  = field_value q vars_q "OLLAMA_BASE_URL" →
  (get_settings p).1 = (get_settings q).1.
Proof.
  intros Hc Hn Hp Hq Hm Hu. unfold get_settings. rewrite <- Hc.
  destruct (cache p); [done|].
  destruct (field_value p vars_p "MODEL_NAME") as [name|] eqn:Hf.
  - rewrite (Settings_new_some p vars_p name Hp Hf).
    rewrite (Settings_new_some q vars_q name Hq) by congruence.
    simpl. by rewrite Hn, Hu.
  - rewrite (Settings_new_none p vars_p Hp Hf).
    by rewrite (Settings_new_none q vars_q Hq) by congruence.
Qed.

(** A call that finds the cache empty reads the sources once; it either
    returns, or raises and stores nothing. *)
Lemma get_settings_miss_cases p :
  cache p = None →
  (∃ s p1, get_settings p = (Ok s, p1)
           ∧ source_reads p1 = S (source_reads p))
  ∨ (∃ e, get_settings p = (Raise e, count_read p)).
Proof.
  intros Hc. destruct (read_dotenv p) as [file_vars|e] eqn:Hr.
  - destruct (field_value p file_vars "MODEL_NAME") as [name|] eqn:Hf.
    + left. rewrite (get_settings_miss_some p file_vars name Hc Hr Hf).
      by eexists _, _.
    + right. rewrite (get_settings_miss_none p file_vars Hc Hr Hf).
      by eexists.
  - right. rewrite (get_settings_miss_unreadable p e Hc Hr). by eexists.
Qed.

(** With the cache filled, further calls return its entry and read
    nothing. *)
Lemma run_rounds_cached s rounds p :
  cache p = Some s →
  (run_rounds get_settings rounds p).1 = replicate (List.length rounds) (Ok s)
  ∧ source_reads (run_rounds get_settings rounds p).2 = source_reads p.
Proof.
  revert p. induction rounds as [|cs rounds IH]; intros p Hc; simpl; [done|].
  destruct (apply_changes_frame cs p) as (Hc' & Hr' & _).
  rewrite (get_settings_hit (apply_changes cs p) s) by congruence.
  destruct (IH (apply_changes cs p)) as [IH1 IH2]; [congruence|].
  destruct (run_rounds get_settings rounds (apply_changes cs p)) as [rs q].
  simpl in *. by rewrite IH1, IH2.
Qed.

(** ** Settings resolution beyond the first scenario *)

(** X1: with no environment variable named [MODEL_NAME] (any letter case)
    and a readable [.env] file, a call that finds the cache empty takes the
    model name from the dict python-dotenv builds from the file: from the
    last key of that dict, in its iteration order, that is named
    [MODEL_NAME] up to letter case, when it has a value.  (In that dict a
    key bound twice stands where it was first bound and holds its last
    value.) *)
Theorem get_settings_model_name_from_dotenv (p : Process)
    (file_vars : list (string * option string)) (v : string) :
  cache p = None →
  unset "MODEL_NAME" (environ p) →
  read_dotenv p = Ok file_vars →
  last_set "MODEL_NAME" (Some v) file_vars →
  ∃ s p', get_settings p = (Ok s, p') ∧ MODEL_NAME s = v.
Proof.
  intros Hc He Hr Hv.
  assert (field_value p file_vars "MODEL_NAME" = Some v) as Hf.
  { unfold field_value, env_settings, dotenv_settings.
    by rewrite (parse_unset _ _ He), (parse_last_set _ _ _ Hv). }
  rewrite (get_settings_miss_some _ _ _ Hc Hr Hf). by eexists _, _.
Qed.

(** A file that binds [MODEL_NAME] twice, with another spelling between. *)
Definition rebinding_dotenv : Process :=
  fresh [] (Some (plain_file [("MODEL_NAME", Some "a");
                              ("model_name", Some "c");
                              ("MODEL_NAME", Some "b")])).

Lemma get_settings_model_name_from_dotenv_witness :
  read_dotenv rebinding_dotenv
  = Ok [("MODEL_NAME", Some "b"); ("model_name", Some "c")]
  ∧ ∃ s p', get_settings rebinding_dotenv = (Ok s, p') ∧ MODEL_NAME s = "c".
Proof.
  split; [reflexivity|].
  apply (get_settings_model_name_from_dotenv rebinding_dotenv
           [("MODEL_NAME", Some "b"); ("model_name", Some "c")] "c").
  - reflexivity.
  - constructor.
  - reflexivity.
  - exists [("MODEL_NAME", Some "b")], "model_name", [].
    repeat split. constructor.
Defined.

(** X2: the base URL of the Settings that a call builds is the value of the
    last environment variable named [OLLAMA_BASE_URL] (any letter case),
    whatever the [.env] file binds; without such a variable it is the value
    of the last key of that name in the dict python-dotenv builds from the
    [.env] file. *)
Theorem get_settings_base_url_order (p p' : Process) (s : Settings) :
  cache p = None →
  get_settings p = (Ok s, p') →
  (∀ u, last_set "OLLAMA_BASE_URL" u (environ p) → OLLAMA_BASE_URL s = u)
  ∧ (∀ file_vars u,
       unset "OLLAMA_BASE_URL" (environ p) →
       read_dotenv p = Ok file_vars →
       last_set "OLLAMA_BASE_URL" (Some u) file_vars →
       OLLAMA_BASE_URL s = u).
Proof.
  intros Hc Hget.
  destruct (read_dotenv p) as [vars|e] eqn:Hr;
    [|by rewrite (get_settings_miss_unreadable _ _ Hc Hr) in Hget].
  destruct (field_value p vars "MODEL_NAME") as [name|] eqn:Hm;
    [|by rewrite (get_settings_miss_none _ _ Hc Hr Hm) in Hget].
  rewrite (get_settings_miss_some _ _ _ Hc Hr Hm) in Hget.
  injection Hget as <- <-. simpl. split.
  - intros u Hu. by rewrite (field_value_env _ _ _ _ Hu).
  - intros file_vars u He [= <-] Hu.
    unfold field_value, env_settings, dotenv_settings.
    by rewrite (parse_unset _ _ He), (parse_last_set _ _ _ Hu).
Qed.

Definition both_urls : Process :=
  fresh [("MODEL_NAME", "llama3"); ("OLLAMA_BASE_URL", "http://gpu:11434/v1")]
        (Some (plain_file
                 [("OLLAMA_BASE_URL", Some "http://ollama:11434/v1")])).

Lemma get_settings_base_url_order_witness :
  ((get_settings both_urls).1
   = Ok (mkSettings 0 "http://gpu:11434/v1" "llama3")
   ∧ OLLAMA_BASE_URL (mkSettings 0 "http://gpu:11434/v1" "llama3")
     = "http://gpu:11434/v1")
  ∧ ((get_settings llama3_with_dotenv_url).1
     = Ok (mkSettings 0 "http://ollama:11434/v1" "llama3")
     ∧ OLLAMA_BASE_URL (mkSettings 0 "http://ollama:11434/v1" "llama3")
       = "http://ollama:11434/v1").
Proof.
  split; (split; [reflexivity|]).
  - destruct (get_settings_base_url_order both_urls (get_settings both_urls).2
                (mkSettings 0 "http://gpu:11434/v1" "llama3")
                eq_refl eq_refl) as [Henv _].
    apply Henv. exists [("MODEL_NAME", "llama3")], "OLLAMA_BASE_URL", [].
    repeat split. constructor.
  - destruct (get_settings_base_url_order llama3_with_dotenv_url
                (get_settings llama3_with_dotenv_url).2
                (mkSettings 0 "http://ollama:11434/v1" "llama3")
                eq_refl eq_refl) as [_ Hfile].
    apply (Hfile [("OLLAMA_BASE_URL", Some "http://ollama:11434/v1")]).
    + repeat constructor. by vm_compute.
    + reflexivity.
    + exists [], "OLLAMA_BASE_URL", []. repeat split. constructor.
Defined.

(** X3: the two ways [get_settings()] fails.  When it raises, the cache
    was empty and nothing has been stored (the cache is still empty and
    only the read of the sources is counted); and either the exception is
    the one raised while the [.env] file was read, or the file was absent
    or readable, no environment variable is named [MODEL_NAME] (any letter
    case), the file gives it no value either, and the exception is the
    configuration error reporting [MODEL_NAME]. *)
Theorem get_settings_failure_causes (p p' : Process) (e : Exception) :
  get_settings p = (Raise e, p') →
  cache p = None
  ∧ p' = count_read p
  ∧ cache p' = None
  ∧ (read_dotenv p = Raise e
     ∨ e = ConfigurationError ["MODEL_NAME"]
       ∧ unset "MODEL_NAME" (environ p)
       ∧ ∃ file_vars, read_dotenv p = Ok file_vars
                      ∧ ∀ v, ¬ last_set "MODEL_NAME" (Some v) file_vars).
Proof.
  intros Hget.
  destruct (cache p) as [c|] eqn:Hc;
    [by rewrite (get_settings_hit _ _ Hc) in Hget|].
  destruct (read_dotenv p) as [vars|e'] eqn:Hr.
  - destruct (field_value p vars "MODEL_NAME") as [name|] eqn:Hf;
      [by rewrite (get_settings_miss_some _ _ _ Hc Hr Hf) in Hget|].
    rewrite (get_settings_miss_none _ _ Hc Hr Hf) in Hget.
    injection Hget as <- <-.
    rewrite field_value_resolve in Hf.
    destruct (last_named _ (environ p)) eqn:Henv; [discriminate|].
    repeat split; try done. right. repeat split.
    + by apply last_named_None.
    + exists vars. split; [done|]. intros v Hv.
      apply parse_last_set in Hv. rewrite parse_lookup in Hv.
      by rewrite Hv in Hf.
  - rewrite (get_settings_miss_unreadable _ _ Hc Hr) in Hget.
    injection Hget as <- <-. repeat split; try done. by left.
Qed.

Lemma get_settings_failure_causes_witness :
  (get_settings no_model_name
   = (Raise (ConfigurationError ["MODEL_NAME"]), count_read no_model_name)
   ∧ cache (count_read no_model_name) = None)
  ∧ (get_settings llama3_bad_dotenv
     = (Raise UnicodeDecodeError, count_read llama3_bad_dotenv)
     ∧ cache (count_read llama3_bad_dotenv) = None).
Proof.
  split; (split; [reflexivity|]).
  - by destruct (get_settings_failure_causes no_model_name
                   (count_read no_model_name)
                   (ConfigurationError ["MODEL_NAME"]) eq_refl)
      as (_ & _ & Hcache & _).
  - by destruct (get_settings_failure_causes llama3_bad_dotenv
                   (count_read llama3_bad_dotenv) UnicodeDecodeError eq_refl)
      as (_ & _ & Hcache & _).
Defined.

(** X4: a failure is not remembered.  After a call that raised for want of
    [MODEL_NAME], the [.env] file being absent or readable, setting
    [MODEL_NAME] (in any letter case) to [v] in the environment makes the
    next call succeed with model name [v], as long as the file can still
    be read. *)
Theorem get_settings_retry_after_failure (p p' : Process) (e : Exception)
    (k v : string) :
  get_settings p = (Raise e, p') →
  readable p →
  lower k = "model_name" →
  readable (apply_change (Putenv k v) p') →
  ∃ s p'', get_settings (apply_change (Putenv k v) p') = (Ok s, p'')
           ∧ MODEL_NAME s = v.
Proof.
  intros Hget [vars Hr] Hk [vars' Hr'].
  destruct (cache p) as [c|] eqn:Hc;
    [by rewrite (get_settings_hit _ _ Hc) in Hget|].
  destruct (field_value p vars "MODEL_NAME") as [name|] eqn:Hf;
    [by rewrite (get_settings_miss_some _ _ _ Hc Hr Hf) in Hget|].
  rewrite (get_settings_miss_none _ _ Hc Hr Hf) in Hget.
  injection Hget as _ <-.
  assert (env_name "MODEL_NAME" = lower k) as Hn by (by rewrite Hk).
  rewrite field_value_resolve, Hn in Hf.
  destruct (last_named _ (environ p)) eqn:Henv; [discriminate|].
  apply last_named_None in Henv.
  assert (field_value (apply_change (Putenv k v) (count_read p)) vars'
            "MODEL_NAME" = Some v) as Hv.
  { rewrite field_value_resolve, Hn.
    change (environ (apply_change (Putenv k v) (count_read p)))
      with (setitem k v (environ p)).
    by rewrite (last_named_setitem k v (environ p) Henv). }
  rewrite (get_settings_miss_some _ vars' v); [by eexists _, _|done|done|done].
Qed.

Lemma get_settings_retry_after_failure_witness :
  ∃ s p'',
    get_settings (apply_change (Putenv "Model_Name" "llama3")
                    (get_settings no_model_name).2)
    = (Ok s, p'')
    ∧ MODEL_NAME s = "llama3".
Proof.
  apply (get_settings_retry_after_failure no_model_name
           (get_settings no_model_name).2 (ConfigurationError ["MODEL_NAME"])
           "Model_Name" "llama3").
  - reflexivity.
  - by exists [("DEBUG", None)].
  - reflexivity.
  - by exists [("DEBUG", None)].
Defined.

(** The names that concern [Settings]: those of its two fields, in any
    letter case. *)
Definition is_field (k : string) : Prop :=
  lower k = "model_name" ∨ lower k = "ollama_base_url".

#[local] Instance is_field_dec k : Decision (is_field k).
Proof. unfold is_field. apply _. Defined.

Lemma field_value_filter p q vars_p vars_q field :
  is_field field →
  filter (λ kv, is_field kv.1) (environ p)
  = filter (λ kv, is_field kv.1) (environ q) →
  filter (λ kv, is_field kv.1) vars_p = filter (λ kv, is_field kv.1) vars_q →
  field_value p vars_p field = field_value q vars_q field.
Proof.
  intros Hfield He Hd.
  assert (∀ k, lower k = env_name field → is_field k) as Hcover.
  { intros k Hk. unfold is_field in *. unfold env_name in Hk. by rewrite Hk. }
  rewrite !field_value_resolve.
  rewrite <- (last_named_filter is_field _ (environ p) Hcover).
  rewrite <- (last_named_filter is_field _ (environ q) Hcover), He.
  destruct (last_named _ _); [done|].
  rewrite <- (last_named_filter is_field _ vars_p Hcover).
  by rewrite <- (last_named_filter is_field _ vars_q Hcover), Hd.
Qed.

(** X5: [get_settings()] looks at nothing but what is named [MODEL_NAME] or
    [OLLAMA_BASE_URL] (any letter case).  Take two processes with the same
    cache whose environments agree on the variables of those names, in
    order, and whose [.env] files are absent or readable and give dicts
    that agree on the keys of those names, in order: they get the same
    outcome, whatever else either environment or dict holds. *)
Theorem get_settings_ignores_other_names (p q : Process)
    (vars_p vars_q : list (string * option string)) :
  cache p = cache q →
  next_id p = next_id q →
  filter (λ kv, is_field kv.1) (environ p)
  = filter (λ kv, is_field kv.1) (environ q) →
  read_dotenv p = Ok vars_p →
  read_dotenv q = Ok vars_q →
  filter (λ kv, is_field kv.1) vars_p = filter (λ kv, is_field kv.1) vars_q →
  (get_settings p).1 = (get_settings q).1.
Proof.
  intros Hc Hn He Hp Hq Hd.
  apply (get_settings_result_ext p q vars_p vars_q); try done;
    apply field_value_filter; try done.
  - by left.
  - by right.
Qed.

Definition llama3_among_others : Process :=
  fresh [("PATH", "/usr/bin"); ("MODEL_NAME", "llama3"); ("HOME", "/root");
         ("MODEL", "other"); ("OLLAMA_HOST", "0.0.0.0")]
        (Some (plain_file [("DEBUG", Some "1");
                           ("OLLAMA_BASE_URL", Some "http://ollama:11434/v1");
                           ("LOG_LEVEL", None)])).

Lemma get_settings_ignores_other_names_witness :
  (get_settings llama3_among_others).1
  = (get_settings llama3_with_dotenv_url).1.
Proof.
  apply (get_settings_ignores_other_names llama3_among_others
           llama3_with_dotenv_url
           [("DEBUG", Some "1");
            ("OLLAMA_BASE_URL", Some "http://ollama:11434/v1");
            ("LOG_LEVEL", None)]
           [("OLLAMA_BASE_URL", Some "http://ollama:11434/v1")]);
    reflexivity.
Defined.

(** X6: the letter case of the names does not matter.  Take two processes
    with the same cache whose environments hold, variable by variable, the
    same values under names that are equal once lowered, and whose [.env]
    files are absent or readable and give dicts that correspond in the
    same way, key by key: they get the same outcome. *)
Theorem get_settings_case_insensitive (p q : Process)
    (vars_p vars_q : list (string * option string)) :
  cache p = cache q →
  next_id p = next_id q →
  Forall2 (λ a b, lower a.1 = lower b.1 ∧ a.2 = b.2) (environ p) (environ q) →
  read_dotenv p = Ok vars_p →
  read_dotenv q = Ok vars_q →
  Forall2 (λ a b, lower a.1 = lower b.1 ∧ a.2 = b.2) vars_p vars_q →
  (get_settings p).1 = (get_settings q).1.
Proof.
  intros Hc Hn He Hp Hq Hd.
  assert (∀ field, field_value p vars_p field = field_value q vars_q field)
    as Hf.
  { intros field. rewrite !field_value_resolve.
    rewrite (last_named_same_names _ _ _ He).
    by rewrite (last_named_same_names _ _ _ Hd). }
  by apply (get_settings_result_ext p q vars_p vars_q).
Qed.

Definition llama3_mixed_case : Process :=
  fresh [("Model_Name", "llama3"); ("ollama_base_url", "http://gpu:11434/v1")]
        (Some (plain_file [("model_NAME", Some "mistral")])).

Definition llama3_upper_case : Process :=
  fresh [("MODEL_NAME", "llama3"); ("OLLAMA_BASE_URL", "http://gpu:11434/v1")]
        (Some (plain_file [("MODEL_NAME", Some "mistral")])).

Lemma get_settings_case_insensitive_witness :
  (get_settings llama3_mixed_case).1 = (get_settings llama3_upper_case).1.
Proof.
  apply (get_settings_case_insensitive llama3_mixed_case llama3_upper_case
           [("model_NAME", Some "mistral")] [("MODEL_NAME", Some "mistral")]).
  - reflexivity.
  - reflexivity.
  - repeat constructor.
  - reflexivity.
  - reflexivity.
  - repeat constructor.
Defined.

(** X7: over any stretch of calls of [get_settings()], with any changes to
    the sources in between and from any state of the cache, any two calls
    that return give one and the same instance, failed calls between them
    or not. *)
Theorem get_settings_one_instance (rounds : list (list EnvChange))
    (p : Process) (i j : nat) (s s' : Settings) :
  (run_rounds get_settings rounds p).1 !! i = Some (Ok s) →
  (run_rounds get_settings rounds p).1 !! j = Some (Ok s') →
  s = s'.
Proof.
  revert p i j. induction rounds as [|cs rounds IH]; intros p i j; simpl;
    [done|].
  destruct (get_settings (apply_changes cs p)) as [[s0|e] p1] eqn:Hget.
  - apply get_settings_fills_cache in Hget.
    destruct (run_rounds_cached s0 rounds p1 Hget) as [Hrs _].
    destruct (run_rounds get_settings rounds p1) as [rs p2]. simpl in *.
    subst rs. intros Hi Hj.
    assert (∀ n x, (Ok s0 :: replicate (List.length rounds) (Ok s0)) !! n
                   = Some (Ok x) → x = s0) as Hall.
    { intros [|n] x; simpl; [by intros [= ->]|].
      intros Hn. apply lookup_replicate in Hn as [Hn _]. by injection Hn. }
    by rewrite (Hall i s Hi), (Hall j s' Hj).
  - specialize (IH p1).
    destruct (run_rounds get_settings rounds p1) as [rs p2]. simpl in *.
    destruct i as [|i]; [done|]. destruct j as [|j]; [done|].
    simpl. apply IH.
Qed.

Definition fail_then_fix : list (list EnvChange) :=
  [[]; [Putenv "HOME" "/root"]; [Putenv "MODEL_NAME" "llama3"];
   [Putenv "MODEL_NAME" "mistral"]].

Lemma get_settings_one_instance_witness :
  (run_rounds get_settings fail_then_fix no_model_name).1 !! 2
  = Some (Ok llama3_settings)
  ∧ (run_rounds get_settings fail_then_fix no_model_name).1 !! 3
    = Some (Ok llama3_settings)
  ∧ llama3_settings = llama3_settings.
Proof.
  split; [reflexivity|]. split; [reflexivity|].
  exact (get_settings_one_instance fail_then_fix no_model_name 2 3
           llama3_settings llama3_settings eq_refl eq_refl).
Defined.

Definition failed {A} (r : Result A) : bool :=
  match r with
  | Raise _ => true
  | Ok _ => false
  end.

Lemma filter_failed_replicate {A} (n : nat) (a : A) :
  List.filter failed (replicate n (Ok a)) = [].
Proof. induction n as [|n IH]; simpl; done. Qed.

(** X8: starting with an empty cache, the sources are read once by every
    call that raises and once by the first call that returns, and by no
    other call. *)
Theorem get_settings_read_count (rounds : list (list EnvChange))
    (p : Process) :
  cache p = None →
  source_reads (run_rounds get_settings rounds p).2
  = (source_reads p
     + List.length (List.filter failed (run_rounds get_settings rounds p).1)
     + (if forallb failed (run_rounds get_settings rounds p).1 then 0 else 1))%nat.
Proof.
  revert p. induction rounds as [|cs rounds IH]; intros p Hc; simpl; [lia|].
  destruct (apply_changes_frame cs p) as (Hc' & Hr' & _).
  rewrite Hc in Hc'.
  destruct (get_settings_miss_cases _ Hc')
    as [(s & p1 & Hok & Hreads)|[e Hraise]].
  - rewrite Hok. apply get_settings_fills_cache in Hok.
    destruct (run_rounds_cached s rounds p1 Hok) as [Hrs Hsame].
    destruct (run_rounds get_settings rounds p1) as [rs p2]. simpl in *.
    rewrite Hsame, Hreads, Hr', Hrs, filter_failed_replicate. simpl. lia.
  - rewrite Hraise.
    specialize (IH (count_read (apply_changes cs p)) Hc').
    destruct (run_rounds get_settings rounds (count_read (apply_changes cs p)))
      as [rs p2]. simpl in *.
    rewrite IH, Hr'. lia.
Qed.

Lemma get_settings_read_count_witness :
  source_reads (run_rounds get_settings fail_then_fix no_model_name).2 = 3.
Proof.
  rewrite (get_settings_read_count fail_then_fix no_model_name eq_refl).
  reflexivity.
Defined.

(** ** Factories and the settings they share *)

(** X9: the [settings] of the loaded module is the cached instance: after
    the module has been loaded, every call of [get_settings()] anywhere in
    the process returns the very Settings the factories use, whatever is
    done to the sources. *)
Theorem module_settings_is_cached_instance (p0 p1 : Process) (g : Globals) :
  import_module p0 = (Ok g, p1) →
  cache p1 = Some (settings g)
  ∧ ∀ rounds,
      (run_rounds get_settings rounds p1).1
      = replicate (List.length rounds) (Ok (settings g)).
Proof.
  unfold import_module, bind, ret.
  destruct (get_settings p0) as [[s|e] q] eqn:Hget; [|discriminate].
  intros [= <- <-]. apply get_settings_fills_cache in Hget.
  split; [done|]. intros rounds.
  by destruct (run_rounds_cached s rounds q Hget).
Qed.

Lemma module_settings_is_cached_instance_witness :
  cache llama3_loaded = Some llama3_settings
  ∧ (run_rounds get_settings three_rounds llama3_loaded).1
    = [Ok llama3_settings; Ok llama3_settings; Ok llama3_settings].
Proof.
  destruct (module_settings_is_cached_instance llama3_only llama3_loaded
              llama3_globals eq_refl) as [Hc Hall].
  split; [exact Hc | exact (Hall three_rounds)].
Defined.

Section Handles.
Variable provider_raises : Process → string → option Exception.
Variable provider_url : Process → string → string.
Variable chat_model_raises :
  Process → string → OllamaProvider → option Exception.

Abbreviation construct :=
  (Core.AgentFactory_new provider_raises provider_url chat_model_raises).

Lemma AgentFactory_new_next_id g p :
  (next_id p ≤ next_id (construct g p).2)%nat.
Proof.
  rewrite AgentFactory_new_unfold.
  destruct (provider_raises _ _); [done|].
  destruct (chat_model_raises _ _ _); [done|]. simpl. lia.
Qed.

(** Every factory of a stretch of constructions was built in a process
    whose next identity is not below the one the stretch started with. *)
Lemma run_rounds_built g rounds p :
  Forall (λ r, ∀ f, r = Ok f →
            ∃ q, f = built_factory provider_url g q ∧ (next_id p ≤ next_id q)%nat)
    (run_rounds (construct g) rounds p).1.
Proof.
  revert p. induction rounds as [|cs rounds IH]; intros p; simpl;
    [by constructor|].
  destruct (apply_changes_frame cs p) as (_ & _ & Hn).
  pose proof (AgentFactory_new_next_id g (apply_changes cs p)) as Hmono.
  destruct (construct g (apply_changes cs p)) as [r p1] eqn:Hnew.
  specialize (IH p1).
  destruct (run_rounds (construct g) rounds p1) as [rs p2]. simpl in *.
  constructor.
  - intros f ->. apply AgentFactory_new_ok in Hnew as [-> _].
    exists (apply_changes cs p). split; [done|lia].
  - eapply Forall_impl; [exact IH|]. simpl.
    intros r' Hr' f Hf. destruct (Hr' f Hf) as (q & -> & Hq).
    exists q. split; [done|lia].
Qed.

Lemma run_rounds_handles_increase g rounds p i j f1 f2 :
  (i < j)%nat →
  (run_rounds (construct g) rounds p).1 !! i = Some (Ok f1) →
  (run_rounds (construct g) rounds p).1 !! j = Some (Ok f2) →
  ∃ q1 q2, f1 = built_factory provider_url g q1 ∧ f2 = built_factory provider_url g q2
           ∧ (next_id q1 < next_id q2)%nat.
Proof.
  revert p i j. induction rounds as [|cs rounds IH]; intros p i j Hij; simpl;
    [done|].
  destruct (apply_changes_frame cs p) as (_ & _ & Hn).
  destruct (construct g (apply_changes cs p)) as [r p1] eqn:Hnew.
  pose proof (run_rounds_built g rounds p1) as Hbuilt.
  specialize (IH p1).
  destruct (run_rounds (construct g) rounds p1) as [rs p2]. simpl in *.
  destruct j as [|j]; [lia|]. destruct i as [|i]; simpl.
  - intros [= ->] Hj.
    apply AgentFactory_new_ok in Hnew as [-> ->].
    destruct (Forall_lookup_1 _ _ _ _ Hbuilt Hj f2 eq_refl) as (q & -> & Hq).
    exists (apply_changes cs p), q. simpl in Hq. split; [done|].
    split; [done|lia].
  - intros Hi Hj. apply (IH i j); [lia|done|done].
Qed.

(** X10: every factory builds a handle of its own.  Two factories
    constructed in one process, at any two places of any stretch of
    constructions, hold handles of different identity that are bound to
    the same model name. *)
Theorem factories_have_own_handles (g : Globals)
    (rounds : list (list EnvChange)) (p : Process) (i j : nat)
    (f1 f2 : AgentFactory) :
  i ≠ j →
  (run_rounds (construct g) rounds p).1 !! i = Some (Ok f1) →
  (run_rounds (construct g) rounds p).1 !! j = Some (Ok f2) →
  ∃ h1 h2,
    model f1 = Some h1 ∧ model f2 = Some h2
    ∧ handle_id h1 ≠ handle_id h2
    ∧ handle_model_name h1 = handle_model_name h2.
Proof.
  intros Hij Hi Hj.
  destruct (decide (i < j)%nat) as [Hlt|Hge].
  - destruct (run_rounds_handles_increase g rounds p i j f1 f2 Hlt Hi Hj)
      as (q1 & q2 & -> & -> & Hq).
    eexists _, _. repeat split; simpl. lia.
  - destruct (run_rounds_handles_increase g rounds p j i f2 f1
                ltac:(lia) Hj Hi) as (q2 & q1 & -> & -> & Hq).
    eexists _, _. repeat split; simpl. lia.
Qed.

End Handles.

Lemma factories_have_own_handles_witness :
  ∃ h1 h2,
    model (built_factory with_slash llama3_globals llama3_loaded) = Some h1
    ∧ model (built_factory with_slash llama3_globals (alloc llama3_loaded).2)
      = Some h2
    ∧ handle_id h1 ≠ handle_id h2
    ∧ handle_model_name h1 = handle_model_name h2.
Proof.
  apply (factories_have_own_handles accepts_all with_slash binds_all
           llama3_globals three_rounds llama3_loaded 0 1).
  - discriminate.
  - reflexivity.
  - reflexivity.
Defined.

(** ** The interactive loop *)

Import Main.

(** A run that also records, in order, every request it is asked to make;
    the recording changes nothing else. *)
Definition logged {Remote} (run_sync : Agent → string → M Remote AgentRunResult)
    : Agent → string → M (Remote * list (Agent * string)) AgentRunResult :=
  λ a message st,
    let '(r, w') := run_sync a message st.1 in
    (r, (w', st.2 ++ [(a, message)])).

Section Loop.
Variable provider_raises : Process → string → option Exception.
Variable provider_url : Process → string → string.
Variable chat_model_raises :
  Process → string → OllamaProvider → option Exception.
Variable Remote : Type.
Variable run_sync : Agent → string → M Remote AgentRunResult.
Variable str_of_result : AgentRunResult → string.

(** What [print] writes for a result (line 129). *)
Definition printed (r : AgentRunResult) : string :=
  String.append newline (String.append (str_of_result r) newline).

(** On a factory that has its [model], [test_agent] without a system
    prompt is one run of the plain Agent. *)
Lemma test_agent_plain {R} (run : Agent → string → M R AgentRunResult)
    (f : AgentFactory) h message (w : R) :
  model f = Some h →
  test_agent R run f message None w = run (Agent_new h None) message w.
Proof.
  intros Hm. unfold test_agent, bind.
  by rewrite (create_agent_ok f h None w Hm).
Qed.

(** The lines answered one after the other by runs of one Agent, when none
    of the runs raises: the results in order and the state the remote side
    is left in. *)
Fixpoint answers (a : Agent) (lines : list string) (w : Remote)
    : option (list AgentRunResult * Remote) :=
  match lines with
  | [] => Some ([], w)
  | message :: rest =>
      match run_sync a message w with
      | (Ok r, w') =>
          match answers a rest w' with
          | Some (rs, w'') => Some (r :: rs, w'')
          | None => None
          end
      | (Raise _, _) => None
      end
  end.

(** X11: when the run for every line of the input returns, the loop reads
    the whole input and then ends with [EOFError], leaving the remote side
    as the last run left it; what it has written is, for every line in
    order, the prompt followed by the formatted result of the run for that
    line, and one more prompt for the read that found the input at its
    end. *)
Theorem repl_reads_all_input (g : Globals) (p p' : Process)
    (f : AgentFactory) (stdin : list string) (w w' : Remote)
    (results : list AgentRunResult) :
  Core.AgentFactory_new provider_raises provider_url chat_model_raises g p
  = (Ok f, p') →
  answers (Agent_new (built_handle provider_url g p) None) stdin w
  = Some (results, w') →
  ∀ stdout,
    repl Remote run_sync str_of_result f stdin w stdout
    = (EOFError, w',
       stdout ++ flat_map (λ r, ["User: "; printed r]) results ++ ["User: "]).
Proof.
  intros Hnew. apply AgentFactory_new_ok in Hnew as [-> _].
  revert w results.
  induction stdin as [|message rest IH]; intros w results; cbn [repl answers].
  - by intros [= <- <-] stdout.
  - rewrite (test_agent_plain run_sync _ (built_handle provider_url g p))
      by done.
    destruct (run_sync _ message w) as [[r|e] w1]; [|discriminate].
    destruct (answers _ rest w1) as [[rs w2]|] eqn:Hrest; [|discriminate].
    intros [= <- <-] stdout. fold (printed r).
    rewrite (IH w1 rs Hrest). simpl. by rewrite <- !app_assoc.
Qed.

(** X12: the loop ends at the first run that raises, with that exception.
    If the lines [before] are all answered and the run for the next line
    raises [e], the program ends with [e] whatever lines follow; the remote
    side is left as that one run left it, and the last thing written is
    the prompt for the line that failed. *)
Theorem repl_stops_at_first_failure (g : Globals) (p p' : Process)
    (f : AgentFactory) (before : list string) (message : string)
    (w w1 w2 : Remote) (stdout stdout1 : list string) (e : Exception) :
  Core.AgentFactory_new provider_raises provider_url chat_model_raises g p
  = (Ok f, p') →
  repl Remote run_sync str_of_result f before w stdout
  = (EOFError, w1, stdout1) →
  run_sync (Agent_new (built_handle provider_url g p) None) message w1 = (Raise e, w2) →
  ∀ after,
    repl Remote run_sync str_of_result f (before ++ message :: after) w stdout
    = (Propagated e, w2, stdout1).
Proof.
  intros Hnew Hbefore Hfail after.
  apply AgentFactory_new_ok in Hnew as [-> _].
  revert w stdout Hbefore.
  induction before as [|m before IH]; intros w stdout; cbn [repl app].
  - intros [= <- <-].
    rewrite (test_agent_plain run_sync _ (built_handle provider_url g p)) by done.
    by rewrite Hfail.
  - rewrite (test_agent_plain run_sync _ (built_handle provider_url g p)) by done.
    destruct (run_sync _ m w) as [[r|e'] w']; [|discriminate].
    apply IH.
Qed.

(** X13: what the loop sends.  The requests made are, in order, the lines
    of a prefix of the input, each sent once to an Agent that has no system
    prompt and talks to the factory's handle; when the loop ends with
    [EOFError] the prefix is the whole input. *)
Theorem repl_requests (g : Globals) (p p' : Process) (f : AgentFactory) :
  Core.AgentFactory_new provider_raises provider_url chat_model_raises g p
  = (Ok f, p') →
  ∀ stdin w log stdout,
    ∃ n, (n ≤ List.length stdin)%nat
         ∧ match repl (Remote * list (Agent * string)) (logged run_sync)
                   str_of_result f stdin (w, log) stdout with
           | (u, (_, log'), _) =>
               log' = log ++ map (λ message,
                                    (Agent_new (built_handle provider_url g p) None, message))
                                 (take n stdin)
               ∧ (u = EOFError → n = List.length stdin)
           end.
Proof.
  intros Hnew. apply AgentFactory_new_ok in Hnew as [-> _].
  induction stdin as [|message rest IH]; intros w log stdout; cbn [repl].
  - exists 0. split; [done|]. by rewrite app_nil_r.
  - rewrite (test_agent_plain (logged run_sync) _ (built_handle provider_url g p)) by done.
    unfold logged at 1. simpl.
    destruct (run_sync (Agent_new (built_handle provider_url g p) None) message w)
      as [[r|e] w1].
    + destruct (IH w1 (log ++ [(Agent_new (built_handle provider_url g p) None, message)])
                  ((stdout ++ ["User: "]) ++ [printed r])) as (n & Hn & IHn).
      exists (S n). split; [simpl; lia|].
      fold (printed r).
      destruct (repl _ _ _ _ rest _ _) as [[u [w' log']] out].
      destruct IHn as [-> Hu]. split.
      * simpl. by rewrite <- app_assoc.
      * intros Hend. by rewrite (Hu Hend).
    + exists 1. split; [lia|]. split; [|discriminate].
      by simpl.
Qed.

(** X14: started with no [MODEL_NAME] in the environment or in the [.env]
    file, the script ends with the configuration error before it constructs
    anything: no prompt is written, no line is read and the remote side is
    not contacted. *)
Theorem main_fails_without_model_name (p : Process) :
  cache p = None →
  unset "MODEL_NAME" (environ p) →
  dotenv_unset "MODEL_NAME" p →
  ∀ stdin w,
    main provider_raises provider_url chat_model_raises Remote run_sync
      str_of_result stdin p w
    = (Propagated (ConfigurationError ["MODEL_NAME"]), count_read p, w, []).
Proof.
  intros Hc He Hd stdin w.
  unfold main, Core.load_and_construct, import_module, bind.
  destruct Hd as (file_vars & Hr & Hd).
  by rewrite (get_settings_miss_none p file_vars Hc Hr
                (field_value_unset _ _ _ He Hd)).
Qed.

End Loop.

(** ** Instances for the loop *)

(** An endpoint that answers every request with the message it received,
    and one that answers its first request only; the state counts the
    requests received. *)
Definition echo_endpoint (a : Agent) (message : string)
    : M nat AgentRunResult :=
  λ n, (Ok (mkRunResult message), S n).

Definition single_answer_endpoint (a : Agent) (message : string)
    : M nat AgentRunResult :=
  λ n, match n with
       | 0 => (Ok (mkRunResult "Hello!"), 1)
       | S _ => (Raise (ProviderError "timed out"), S n)
       end.

Lemma repl_reads_all_input_witness :
  repl nat echo_endpoint output llama3_factory ["Hi"; "Bye"] 0 []
  = (EOFError, 2,
     ["User: "; printed output (mkRunResult "Hi");
      "User: "; printed output (mkRunResult "Bye"); "User: "]).
Proof.
  apply (repl_reads_all_input accepts_all with_slash binds_all nat
           echo_endpoint output llama3_globals llama3_loaded _ llama3_factory
           ["Hi"; "Bye"] 0 2 [mkRunResult "Hi"; mkRunResult "Bye"]
           llama3_factory_constructed).
  reflexivity.
Defined.

Lemma repl_stops_at_first_failure_witness :
  repl nat single_answer_endpoint output llama3_factory
    (["Hi"] ++ "More" :: ["never read"]) 0 []
  = (Propagated (ProviderError "timed out"), 2,
     ["User: "; printed output (mkRunResult "Hello!"); "User: "]).
Proof.
  apply (repl_stops_at_first_failure accepts_all with_slash binds_all nat
           single_answer_endpoint output llama3_globals llama3_loaded _
           llama3_factory ["Hi"] "More" 0 1 2 []
           ["User: "; printed output (mkRunResult "Hello!"); "User: "]
           (ProviderError "timed out") llama3_factory_constructed);
    reflexivity.
Defined.

Lemma repl_requests_witness :
  ∃ n, (n ≤ 3)%nat
       ∧ match repl (nat * list (Agent * string))
                 (logged single_answer_endpoint) output llama3_factory
                 ["Hi"; "More"; "Later"] (0, []) [] with
         | (u, (_, log'), _) =>
             log' = [] ++ map (λ message,
                                 (Agent_new
                                    (built_handle with_slash llama3_globals llama3_loaded)
                                    None, message))
                              (take n ["Hi"; "More"; "Later"])
             ∧ (u = EOFError → n = 3)
         end.
Proof.
  exact (repl_requests accepts_all with_slash binds_all nat single_answer_endpoint output
           llama3_globals llama3_loaded _ llama3_factory
           llama3_factory_constructed ["Hi"; "More"; "Later"] 0 [] []).
Defined.

Lemma main_fails_without_model_name_witness :
  main accepts_all with_slash binds_all nat echo_endpoint output ["Hi"] no_model_name 0
  = (Propagated (ConfigurationError ["MODEL_NAME"]), count_read no_model_name,
     0, []).
Proof.
  apply (main_fails_without_model_name accepts_all with_slash binds_all nat
           echo_endpoint output no_model_name).
  - reflexivity.
  - repeat constructor. by vm_compute.
  - exists [("DEBUG", None)]. split; [reflexivity|].
    repeat constructor. by vm_compute.
Defined.
